(** * Workplan validation and radar-chart construction

    A shallow embedding of [validate_workplan] and [position_radarchart]
    from [chart.py] (the same validator is repeated verbatim in
    [positions/scripts/helper_module.py]), followed by the properties the
    position-description specification states about them.

    Python is dynamically typed, so the embedding starts with a universe of
    run-time values, their classes, and the few builtins the two functions
    call.  Exceptions are explicit: a computation either returns, raises, or
    leaves the embedded fragment of the language. *)

From Stdlib Require Import ZArith String List Ascii Bool Lia.
From Stdlib Require Import DecimalString DecimalPos DecimalZ SpecFloat.
Import ListNotations.

Local Open Scope string_scope.
Local Open Scope Z_scope.
Local Set Warnings "-register-all".

(** ** Python values and builtins *)

Module Py.

(** Run-time values.  These are the objects a YAML position file can
    supply for a workplan (scalars, sequences, mappings) plus tuples.
    A [dict] is the list of its items in insertion order; Python keeps
    the keys pairwise distinct, and nothing below depends on that. *)
Inductive value : Type :=
| VNone
| VBool (b : bool)
| VInt (z : Z)
| VFloat (f : spec_float)
| VStr (s : string)
| VList (elts : list value)
| VTuple (elts : list value)
| VDict (items : list (value * value)).

(** The classes of those values. *)
Inductive pytype : Type :=
| TNoneType | Tbool | Tint | Tfloat | Tstr | Tlist | Ttuple | Tdict.

(** [type(v)] *)
Definition type_of (v : value) : pytype :=
  match v with
  | VNone => TNoneType
  | VBool _ => Tbool
  | VInt _ => Tint
  | VFloat _ => Tfloat
  | VStr _ => Tstr
  | VList _ => Tlist
  | VTuple _ => Ttuple
  | VDict _ => Tdict
  end.

(** [t1 is t2] on classes *)
Definition type_eqb (t1 t2 : pytype) : bool :=
  match t1, t2 with
  | TNoneType, TNoneType | Tbool, Tbool | Tint, Tint | Tfloat, Tfloat
  | Tstr, Tstr | Tlist, Tlist | Ttuple, Ttuple | Tdict, Tdict => true
  | _, _ => false
  end.

(** [issubclass(t1, t2)]: the only proper subclass relation among these
    classes is [bool <: int]. *)
Definition issubclass (t1 t2 : pytype) : bool :=
  match t1, t2 with
  | Tbool, Tint => true
  | _, _ => type_eqb t1 t2
  end.

(** [isinstance(v, t)] *)
Definition isinstance (v : value) (t : pytype) : bool :=
  issubclass (type_of v) t.

(** [type(v) is t] *)
Definition type_is (v : value) (t : pytype) : bool :=
  type_eqb (type_of v) t.

(** [t.__name__] *)
Definition type_name (t : pytype) : string :=
  match t with
  | TNoneType => "NoneType"
  | Tbool => "bool"
  | Tint => "int"
  | Tfloat => "float"
  | Tstr => "str"
  | Tlist => "list"
  | Ttuple => "tuple"
  | Tdict => "dict"
  end.

(** [repr(t)] and [str(t)] of a class: [<class 'int'>] *)
Definition repr_type (t : pytype) : string :=
  "<class '" ++ type_name t ++ "'>".

(** [sep.join(parts)] *)
Fixpoint join (sep : string) (parts : list string) : string :=
  match parts with
  | [] => ""
  | [p] => p
  | p :: rest => p ++ sep ++ join sep rest
  end.

(** [str(ts)] of a list of classes: [[<class 'float'>, <class 'str'>]] *)
Definition str_type_list (ts : list pytype) : string :=
  "[" ++ join ", " (map repr_type ts) ++ "]".

(** [str(z)] of an [int]: decimal digits, a leading minus sign when
    negative. *)
Definition str_int (z : Z) : string :=
  NilZero.string_of_int (Z.to_int z).

(** [fmt.format(arg)] for a template with one replacement field [{}];
    [arg] is the already rendered text of the argument. *)
Fixpoint format (fmt arg : string) : string :=
  match fmt with
  | EmptyString => EmptyString
  | String "{" (String "}" rest) => arg ++ rest
  | String c rest => String c (format rest arg)
  end.

(** Exceptions.  The three classes the program defines carry their
    message; the built-in ones it can meet are identified by class. *)
Inductive exn : Type :=
| ValuesDontSumTo100 (msg : string)
| ValuesNotTypeInt (msg : string)
| InvalidParameterType (msg : string)
| ValueError
| AttributeError.

(** What evaluating an expression or a call does.  [Unsupported] marks an
    evaluation outside the embedded fragment: arithmetic and ordering are
    embedded on the integer tower ([int] and its subclass [bool]) only.
    [position_radarchart_supported] below shows the program never gets
    there. *)
Inductive outcome (A : Type) : Type :=
| Return (a : A)
| Raise (e : exn)
| Unsupported.

Arguments Return {A} a.
Arguments Raise {A} e.
Arguments Unsupported {A}.

Definition bind {A B : Type} (c : outcome A) (k : A -> outcome B)
  : outcome B :=
  match c with
  | Return a => k a
  | Raise e => Raise e
  | Unsupported => Unsupported
  end.

(** [try: body except Exception as e: handler(e)] *)
Definition try_except {A : Type} (body : outcome A)
    (handler : exn -> outcome A) : outcome A :=
  match body with
  | Raise e => handler e
  | other => other
  end.

(** Truth value of an object, as tested by [if]. *)
Definition truthy (v : value) : bool :=
  match v with
  | VNone => false
  | VBool b => b
  | VInt z => negb (z =? 0)
  | VFloat (S754_zero _) => false
  | VFloat _ => true
  | VStr s => negb (String.eqb s "")
  | VList l | VTuple l => negb (Nat.eqb (List.length l) 0)
  | VDict d => negb (Nat.eqb (List.length d) 0)
  end.

(** The integer a value of the integer tower denotes. *)
Definition as_int (v : value) : option Z :=
  match v with
  | VInt z => Some z
  | VBool b => Some (if b then 1 else 0)
  | _ => None
  end.

(** [a + b] *)
Definition add (a b : value) : outcome value :=
  match as_int a, as_int b with
  | Some x, Some y => Return (VInt (x + y))
  | _, _ => Unsupported
  end.

(** [a > b] *)
Definition gt (a b : value) : outcome bool :=
  match as_int a, as_int b with
  | Some x, Some y => Return (y <? x)
  | _, _ => Unsupported
  end.

(** [sum(vs)]: left to right from the integer [0]. *)
Fixpoint sum_from (acc : Z) (vs : list value) : outcome Z :=
  match vs with
  | [] => Return acc
  | v :: rest =>
      match as_int v with
      | Some z => sum_from (acc + z) rest
      | None => Unsupported
      end
  end.

Definition sum (vs : list value) : outcome Z := sum_from 0 vs.

(** [max(vs)]: the first item is the candidate; a later item replaces it
    when [item > candidate]; an empty argument raises [ValueError]. *)
Fixpoint max_from (best : value) (vs : list value) : outcome value :=
  match vs with
  | [] => Return best
  | v :: rest =>
      bind (gt v best) (fun bigger =>
        max_from (if bigger then v else best) rest)
  end.

Definition max (vs : list value) : outcome value :=
  match vs with
  | [] => Raise ValueError
  | v :: rest => max_from v rest
  end.

(** [d.keys()] and [d.values()]: views in insertion order; the other
    classes have no such attribute. *)
Definition keys (d : value) : outcome (list value) :=
  match d with
  | VDict items => Return (map fst items)
  | _ => Raise AttributeError
  end.

Definition values (d : value) : outcome (list value) :=
  match d with
  | VDict items => Return (map snd items)
  | _ => Raise AttributeError
  end.

End Py.

Import Py.

Notation "x <- c ;; k" := (bind c (fun x => k))
  (at level 61, c at next level, right associativity).

(** ** chart.py *)

(** [validate_workplan(workplan)] *)
Definition validate_workplan (workplan : value) : outcome value :=
  if isinstance workplan Tdict then
    vs <- values workplan ;;
    if forallb (fun value => type_is value Tint) vs then
      s <- sum vs ;;
      if s =? 100 then
        Return (VBool true)
      else
        s' <- sum vs ;;
        let error_msg :=
          format "The workplan parameter values should total 100, instead sums to {}."
                 (str_int s') in
        Raise (ValuesDontSumTo100 error_msg)
    else
      let error_msg :=
        format "All workplan values must be integers, instead received type(s): {}."
               (str_type_list
                  (map type_of
                       (filter (fun value => negb (isinstance value Tint)) vs))) in
      Raise (ValuesNotTypeInt error_msg)
  else
    let error_msg :=
      format "The workplan parameter expects a dictionary, but received {}."
             (repr_type (type_of workplan)) in
    Raise (InvalidParameterType error_msg).

(** The trace [go.Scatterpolar(r=..., theta=..., fill=..., fillcolor=...,
    line={'color': ...})].  The plotting library is an external
    collaborator: the constructor is taken to store its arguments. *)
Record Scatterpolar : Type := {
  r : list value;
  theta : list value;
  fill : string;
  fillcolor : string;
  line_color : string
}.

(** [layout['polar']['radialaxis']] *)
Record radialaxis : Type := {
  visible : bool;
  axis_color : string;
  linecolor : string;
  range : list value
}.

(** [layout] *)
Record layout : Type := {
  title : string;
  font_color : string;
  polar_radialaxis : radialaxis;
  showlegend : bool;
  hovermode : string
}.

(** [fig = {'data': data, 'layout': layout}] *)
Record figure : Type := {
  fig_data : list Scatterpolar;
  fig_layout : layout
}.

(** What [position_radarchart] hands back through [return]: the figure, or
    the exception object caught by its [except] clause. *)
Inductive chart_result : Type :=
| Fig (fig : figure)
| Caught (e : exn).

(** The body of the [try] block. *)
Definition build_figure (job_title : string) (workplan : value)
  : outcome chart_result :=
  responsibilities <- keys workplan ;;
  r_values <- values workplan ;;
  top <- max r_values ;;
  upper <- add top (VInt 5) ;;
  let axis_range := [VInt 0; upper] in
  let data := [ {| r := r_values;
                   theta := responsibilities;
                   fill := "toself";
                   fillcolor := "#a1d99b";
                   line_color := "#a1d99b" |} ] in
  let layout := {| title := format "{}<br>Responsibilities" job_title;
                   font_color := "#a1d99b";
                   polar_radialaxis := {| visible := true;
                                          axis_color := "black";
                                          linecolor := "green";
                                          range := axis_range |};
                   showlegend := false;
                   hovermode := "closest" |} in
  let fig := {| fig_data := data; fig_layout := layout |} in
  Return (Fig fig).

(** The [else] branch paired with [if validate_workplan(workplan)]. *)
Definition not_validated (workplan : value) : outcome chart_result :=
  let error_msg :=
    format "The workplan parameter expects a dictionary, but received {}."
           (repr_type (type_of workplan)) in
  Raise (InvalidParameterType error_msg).

(** [position_radarchart(job_title, workplan)] *)
Definition position_radarchart (job_title : string) (workplan : value)
  : outcome chart_result :=
  ok <- validate_workplan workplan ;;
  if truthy ok then
    try_except (build_figure job_title workplan)
               (fun e => Return (Caught e))
  else
    not_validated workplan.

(** The workplan of the specification's worked example. *)
Definition mechanic_workplan : value :=
  VDict [ (VStr "repair", VInt 40);
          (VStr "inspection", VInt 35);
          (VStr "paperwork", VInt 25) ].

(** A workplan with a negative share. *)
Definition negative_workplan : value :=
  VDict [ (VStr "a", VInt (-10)); (VStr "b", VInt 110) ].

(** A workplan with a Boolean among its values, as [on_call: yes] in a YAML
    position file produces. *)
Definition on_call_workplan : value :=
  VDict [ (VStr "repair", VInt 99); (VStr "on_call", VBool true) ].

(** ** Vocabulary of the specification *)

(** The sum of the percentages. *)
Definition total (zs : list Z) : Z := fold_right Z.add 0 zs.

(** [m] is the greatest of [zs]. *)
Definition is_maximum (m : Z) (zs : list Z) : Prop :=
  In m zs /\ Forall (fun z => z <= m) zs.

(** A line break. *)
Definition newline : string := String "010"%char EmptyString.

(** ** helper_module.py

    The functions of [positions/scripts/helper_module.py] around the chart
    code: the position dictionary read from a YAML file, the chart built
    from it, the chart's file name, and the wait for the image file. *)

(** The exceptions of the chart code and the further built-in ones these
    functions raise; [KeyError] carries the missing key,
    [UnboundLocalError] the name of the local variable. *)
Inductive error : Type :=
| Exn (e : exn)
| KeyError (key : string)
| TypeError
| IndexError
| UnboundLocalError (name : string).

(** What a call does, as [outcome] with the wider exceptions. *)
Inductive result (A : Type) : Type :=
| Ok (a : A)
| Err (e : error)
| Outside.

Arguments Ok {A} a.
Arguments Err {A} e.
Arguments Outside {A}.

Definition result_bind {A B : Type} (c : result A) (k : A -> result B)
  : result B :=
  match c with
  | Ok a => k a
  | Err e => Err e
  | Outside => Outside
  end.

(** A call into the chart code. *)
Definition lift {A : Type} (c : outcome A) : result A :=
  match c with
  | Return a => Ok a
  | Raise e => Err (Exn e)
  | Unsupported => Outside
  end.

Declare Scope result_scope.
Notation "x <- c ;; k" := (result_bind c (fun x => k))
  (at level 61, c at next level, right associativity) : result_scope.
Local Open Scope result_scope.

(** [str(v)], as [format] and f-strings render a value; embedded for the
    scalars whose text needs no number formatting. *)
Definition str_value (v : value) : result string :=
  match v with
  | VStr s => Ok s
  | VInt z => Ok (str_int z)
  | VBool true => Ok "True"
  | VBool false => Ok "False"
  | VNone => Ok "None"
  | _ => Outside
  end.

(** [k == key] for a key [k] of a dict and a string [key]: no value of
    another class equals a string. *)
Definition is_key (key : string) (k : value) : bool :=
  match k with
  | VStr s => String.eqb s key
  | _ => false
  end.

Fixpoint lookup (key : string) (items : list (value * value))
  : option value :=
  match items with
  | [] => None
  | (k, v) :: rest => if is_key key k then Some v else lookup key rest
  end.

(** [obj[key]] with a string key: [KeyError] on a dict without the key,
    [TypeError] on the other classes (not subscriptable, or indexed by
    integers only). *)
Definition getitem (obj : value) (key : string) : result value :=
  match obj with
  | VDict items =>
      match lookup key items with
      | Some v => Ok v
      | None => Err (KeyError key)
      end
  | _ => Err TypeError
  end.

(** [d[key] = v] with a string key: an existing key keeps its place, a new
    one goes last. *)
Fixpoint setitem (key : string) (v : value) (items : list (value * value))
  : list (value * value) :=
  match items with
  | [] => [(VStr key, v)]
  | (k, old) :: rest =>
      if is_key key k then (k, v) :: rest
      else (k, old) :: setitem key v rest
  end.

(** [position[target] = element[source]] *)
Definition assign (position : list (value * value)) (target : string)
    (element : value) (source : string) : result (list (value * value)) :=
  v <- getitem element source ;;
  Ok (setitem target v position).

(** The body of the loop of [create_position_object]. *)
Definition copy_fields (position : list (value * value)) (element : value)
  : result (list (value * value)) :=
  position <- assign position "title" element "title" ;;
  position <- assign position "job_summary" element "summary" ;;
  position <- assign position "job_expectations" element "expectations" ;;
  position <- assign position "job_scope" element "scope" ;;
  position <- assign position "job_activities" element "activities" ;;
  position <- assign position "breakdown" element "workplan" ;;
  Ok position.

(** [for element in elements: ...] *)
Fixpoint for_each_element (elements : list value)
    (position : list (value * value)) : result (list (value * value)) :=
  match elements with
  | [] => Ok position
  | element :: rest =>
      position <- copy_fields position element ;;
      for_each_element rest position
  end.

(** [create_position_object(data)] *)
Definition create_position_object (data : value) : result value :=
  elements <- lift (values data) ;;
  position <- for_each_element elements [] ;;
  Ok (VDict position).

(** [create_radarchart(position)].  Its [try] block is that of
    [position_radarchart], with the figure wrapped by [go.Figure], taken to
    store its arguments; rendering the title is the one step that does not
    raise, so it is written before the block. *)
Definition create_radarchart (position : value) : result chart_result :=
  jobtitle <- getitem position "title" ;;
  workplan <- getitem position "breakdown" ;;
  ok <- lift (validate_workplan workplan) ;;
  if truthy ok then
    text <- str_value jobtitle ;;
    lift (try_except (build_figure text workplan)
                     (fun e => Return (Caught e)))
  else
    lift (not_validated workplan).

(** [s.split(sep)] for a non-empty [sep], scanning left to right: [skip]
    characters of a separator just met are still to pass, [piece] is the
    part collected since the last separator. *)
Fixpoint split_from (sep : string) (skip : nat) (piece s : string)
  : list string :=
  match s with
  | EmptyString => [piece]
  | String c rest =>
      match skip with
      | S k => split_from sep k piece rest
      | O =>
          if String.prefix sep s
          then piece :: split_from sep (Nat.pred (String.length sep)) "" rest
          else split_from sep 0 (piece ++ String c "") rest
      end
  end.

(** [s.split(sep)]: an empty separator raises [ValueError]. *)
Definition split (s sep : string) : result (list string) :=
  match sep with
  | EmptyString => Err (Exn ValueError)
  | _ => Ok (split_from sep 0 "" s)
  end.

(** [parts[i]] for an index [i >= 0] *)
Definition item {A : Type} (parts : list A) (i : nat) : result A :=
  match nth_error parts i with
  | Some x => Ok x
  | None => Err IndexError
  end.

(** [strip_filename(image_filename, directory)] *)
Definition strip_filename (image_filename directory : string)
  : result string :=
  parts <- split image_filename "." ;;
  stem <- item parts 0 ;;
  parts <- split stem directory ;;
  name <- item parts 1 ;;
  Ok name.

(** The default of the [directory] parameter. *)
Definition charts_directory : string := "data/charts/".

Local Close Scope result_scope.

(** *** Functions with effects *)

(** What these functions observe and change outside themselves: the
    answers that successive calls of [os.path.exists] get, the number of
    such calls made, the seconds spent in [time.sleep], and the lines
    printed. *)
Record world : Type := {
  exists_answer : nat -> string -> bool;
  checks : nat;
  slept : Z;
  printed : list string
}.

Definition io (A : Type) : Type := world -> result A * world.

Definition io_ret {A : Type} (a : A) : io A := fun w => (Ok a, w).

Definition io_raise {A : Type} (e : error) : io A := fun w => (Err e, w).

Definition io_bind {A B : Type} (c : io A) (k : A -> io B) : io B :=
  fun w =>
    match c w with
    | (Ok a, w') => k a w'
    | (Err e, w') => (Err e, w')
    | (Outside, w') => (Outside, w')
    end.

(** [try: body except ...: handler] *)
Definition io_try {A : Type} (body : io A) (handler : error -> io A)
  : io A :=
  fun w =>
    match body w with
    | (Err e, w') => handler e w'
    | other => other
    end.

(** A call of a function without effects. *)
Definition pure {A : Type} (c : result A) : io A := fun w => (c, w).

(** [os.path.exists(path)] *)
Definition path_exists (path : string) : io bool :=
  fun w =>
    (Ok (exists_answer w (checks w) path),
     {| exists_answer := exists_answer w;
        checks := S (checks w);
        slept := slept w;
        printed := printed w |}).

(** [time.sleep(seconds)] *)
Definition sleep (seconds : Z) : io unit :=
  fun w =>
    (Ok tt,
     {| exists_answer := exists_answer w;
        checks := checks w;
        slept := slept w + seconds;
        printed := printed w |}).

(** [print(line)] *)
Definition print (line : string) : io unit :=
  fun w =>
    (Ok tt,
     {| exists_answer := exists_answer w;
        checks := checks w;
        slept := slept w;
        printed := printed w ++ [line] |}).

Declare Scope io_scope.
Notation "x <- c ;; k" := (io_bind c (fun x => k))
  (at level 61, c at next level, right associativity) : io_scope.
Local Open Scope io_scope.

(** The [for second in wait_seconds_iterable] loop of
    [ensure_filepath_exists]; [path] is the local variable of that name,
    [None] while it is unbound. *)
Fixpoint wait_for_path (wait_seconds_iterable : list Z) (filename : string)
    (path : option string) : io (option string) :=
  match wait_seconds_iterable with
  | [] => io_ret path
  | second :: rest =>
      _ <- sleep second ;;
      found <- path_exists filename ;;
      if found then io_ret (Some filename)
      else wait_for_path rest filename path
  end.

(** [ensure_filepath_exists(filename)] *)
Definition ensure_filepath_exists (filename : string) : io string :=
  found <- path_exists filename ;;
  path <- (if found then io_ret (Some filename)
           else io_try (wait_for_path [1; 2; 3; 4; 5] filename None)
                       (fun e => io_raise e)) ;;
  still <- path_exists filename ;;
  _ <- (if negb still
        then print ("Error: failed to ensure existence of filepath for "
                      ++ filename)
        else io_ret tt) ;;
  match path with
  | Some p => io_ret p
  | None => io_raise (UnboundLocalError "path")
  end.

Section Collaborators.

(** [py.plot(figure_or_data=..., auto_open=False, fileoption=...,
    plot_options={'sharing': ..., 'filename': ...})] of the chart service
    and [read_position_file(filename)], which opens and parses a YAML
    file. *)
Variable plot : chart_result -> string -> string -> string -> io string.
Variable read_position_file : string -> io value.

(** [publish_chart(filename, figure, fileoption)]; [stripped] is the local
    variable of that name, [None] while it is unbound. *)
Definition publish_chart (filename : string) (figure : chart_result)
    (fileoption : string) : io value :=
  stripped <-
    io_try (name <- pure (strip_filename filename charts_directory) ;;
            io_ret (Some name))
           (fun _ =>
              _ <- print ("Error: function failed to shorten filename "
                            ++ filename) ;;
              io_ret None) ;;
  match stripped with
  | None => io_raise (UnboundLocalError "stripped")
  | Some name =>
      if truthy (VStr name) then
        io_try (url <- plot figure fileoption "public" name ;;
                io_ret (VStr url))
               (fun e => io_raise e)
      else io_ret VNone
  end.

(** [get_position(yaml_file)] *)
Definition get_position (yaml_file : string) : io value :=
  io_try
    (data <- read_position_file yaml_file ;;
     if truthy data then
       io_try (job_details <- pure (create_position_object data) ;;
               io_ret job_details)
              (fun _ =>
                 _ <- print "Error: create_position_object() method failed" ;;
                 io_ret VNone)
     else io_ret VNone)
    (fun _ =>
       _ <- print ("Error: failed attempting to handle and read "
                     ++ yaml_file) ;;
       io_ret VNone).

End Collaborators.

Local Close Scope io_scope.

(** *** The caller in chart.py *)

Module Chart.

(** An instance of the class [Position]. *)
Record Position : Type := {
  title : value;
  about_job : value;
  workplan : value;
  division : value;
  about_org : value
}.

(** [c.lower()] of one character, embedded for ASCII: the capital letters
    move to the small ones, the rest stays. *)
Definition lower_char (c : ascii) : result ascii :=
  let n := nat_of_ascii c in
  if (Nat.leb 65 n && Nat.leb n 90)%bool then Ok (ascii_of_nat (n + 32))
  else if Nat.ltb n 128 then Ok c
  else Outside.

(** [s.lower()] *)
Fixpoint lower (s : string) : result string :=
  match s with
  | EmptyString => Ok EmptyString
  | String c rest =>
      result_bind (lower_char c) (fun c' =>
      result_bind (lower rest) (fun rest' =>
      Ok (String c' rest')))
  end.

(** [obj.lower()]: among the embedded classes only [str] has the method. *)
Definition call_lower (obj : value) : result string :=
  match obj with
  | VStr s => lower s
  | _ => Err (Exn AttributeError)
  end.

(** [s.replace(old, new)] for one-character [old] and [new] *)
Fixpoint replace_char (old new : ascii) (s : string) : string :=
  match s with
  | EmptyString => EmptyString
  | String c rest =>
      String (if Ascii.eqb c old then new else c) (replace_char old new rest)
  end.

Section Service.

(** [py.plot(figure, filename, fileopt=fileoption, auto_open=False)] *)
Variable plot : chart_result -> string -> string -> io string.

(** [publish_chart(job, fileoption)] of [chart.py] *)
Definition publish_chart (job : Position) (fileoption : string)
  : io string :=
  io_try
    (io_bind
       (pure (result_bind (str_value (title job)) (fun text =>
              lift (position_radarchart text (workplan job)))))
       (fun figure =>
     io_bind
       (pure (result_bind (call_lower (title job)) (fun lowered =>
              Ok (format "{}-posting" (replace_char " " "-" lowered)))))
       (fun filename =>
     plot figure filename fileoption)))
    (fun e => io_raise e).

End Service.

End Chart.

(** *** Vocabulary for the helper functions *)

(** [sep] occurs in [s]. *)
Fixpoint occurs (sep s : string) : bool :=
  match s with
  | EmptyString => String.prefix sep s
  | String _ rest => String.prefix sep s || occurs sep rest
  end.

(** What follows the stem of a file name: nothing, or a dot and more. *)
Definition is_extension (tail : string) : Prop :=
  tail = "" \/ exists rest, tail = "." ++ rest.

(** The keys [create_position_object] reads in each element, in order. *)
Definition source_keys : list string :=
  ["title"; "summary"; "expectations"; "scope"; "activities"; "workplan"].

(** The first of them an element lacks. *)
Definition first_missing (element : list (value * value)) : option string :=
  find (fun key => match lookup key element with
                   | Some _ => false
                   | None => true
                   end) source_keys.

(** The dictionary [create_position_object] fills. *)
Definition position_dict (t s x sc a w : value) : list (value * value) :=
  [ (VStr "title", t); (VStr "job_summary", s);
    (VStr "job_expectations", x); (VStr "job_scope", sc);
    (VStr "job_activities", a); (VStr "breakdown", w) ].

(** An element holding every key the loop reads. *)
Definition has_fields (element : value) : Prop :=
  forall key, In key source_keys -> exists v, getitem element key = Ok v.

(** The dictionary is empty before the first element and has its six keys
    after any. *)
Definition filled (position : list (value * value)) : Prop :=
  position = [] \/
  exists t s x sc a w, position = position_dict t s x sc a w.

(** Two positions as a YAML file gives them, and a file holding both. *)
Definition intern_entry : value :=
  VDict [ (VStr "title", VStr "Marketing Intern");
          (VStr "summary", VStr "Supports outreach.");
          (VStr "expectations", VStr "Ten hours a week.");
          (VStr "scope", VStr "Office");
          (VStr "activities", VList [VStr "mailings"]);
          (VStr "workplan", negative_workplan) ].

Definition mechanic_entry : value :=
  VDict [ (VStr "title", VStr "Auto Mechanic II");
          (VStr "summary", VStr "Maintains the fleet.");
          (VStr "expectations", VStr "Full time.");
          (VStr "scope", VStr "Garage");
          (VStr "activities", VList [VStr "repairs"; VStr "inspections"]);
          (VStr "workplan", mechanic_workplan) ].

Definition positions_file : value :=
  VDict [ (VStr "intern", intern_entry); (VStr "mechanic", mechanic_entry) ].

(** A world in which the file shows up at the third look. *)
Definition late_world : world :=
  {| exists_answer := fun n _ => Nat.leb 2 n;
     checks := 0;
     slept := 0;
     printed := [] |}.

(** A world in which the file never shows up. *)
Definition barren_world : world :=
  {| exists_answer := fun _ _ => false;
     checks := 0;
     slept := 0;
     printed := [] |}.

(** A chart service that answers with a fixed address, and one that is
    down. *)
Definition plot_ok : chart_result -> string -> string -> string -> io string :=
  fun _ _ _ name => io_ret ("https://plot.ly/~office/" ++ name).

(** A parsed file whose first position lacks fields. *)
Definition clerk_file : value :=
  VDict [ (VStr "clerk",
           VDict [ (VStr "title", VStr "Clerk");
                   (VStr "workplan", mechanic_workplan) ]);
          (VStr "mechanic", mechanic_entry) ].

(** Readers that deliver a given document whatever the file name. *)
Definition read_as (document : value) : string -> io value :=
  fun _ => io_ret document.

(** The line [ensure_filepath_exists] prints. *)
Definition missing_path_line (filename : string) : string :=
  "Error: failed to ensure existence of filepath for " ++ filename.

(** A chart service for [chart.py] that answers with a fixed address. *)
Definition plot_named : chart_result -> string -> string -> io string :=
  fun _ filename _ => io_ret ("https://plot.ly/~office/" ++ filename).

(** The mechanic's position as an object. *)
Definition mechanic_job : Chart.Position :=
  {| Chart.title := VStr "Auto Mechanic II";
     Chart.about_job := VStr "Maintains the fleet.";
     Chart.workplan := mechanic_workplan;
     Chart.division := VStr "BPIO: Business Process Improvement Office";
     Chart.about_org := VStr "Department of General Services" |}.

(** The same position with a workplan that sums to 90. *)
Definition short_job : Chart.Position :=
  {| Chart.title := VStr "Auto Mechanic II";
     Chart.about_job := VStr "Maintains the fleet.";
     Chart.workplan := VDict [ (VStr "repair", VInt 60);
                               (VStr "paperwork", VInt 30) ];
     Chart.division := VStr "BPIO: Business Process Improvement Office";
     Chart.about_org := VStr "Department of General Services" |}.

(** ** Builtins on integer arguments *)

Section Builtins.

Lemma type_is_int_inv (v : value) :
  type_is v Tint = true -> exists z, v = VInt z.
Proof.
  destruct v; cbn; intros H; try discriminate H.
  now exists z.
Qed.

Lemma all_type_int_inv (vs : list value) :
  forallb (fun value => type_is value Tint) vs = true ->
  exists zs, vs = map VInt zs.
Proof.
  induction vs as [|v vs IH]; cbn.
  - intros _. now exists [].
  - intros H. apply andb_true_iff in H as [Hv Hvs].
    destruct (type_is_int_inv v Hv) as [z ->].
    destruct (IH Hvs) as [zs ->].
    now exists (z :: zs).
Qed.

Lemma all_type_int_ints (zs : list Z) :
  forallb (fun value => type_is value Tint) (map VInt zs) = true.
Proof. induction zs as [|z zs IH]; cbn; auto. Qed.

Lemma sum_from_ints (zs : list Z) :
  forall acc, sum_from acc (map VInt zs) = Return (acc + total zs).
Proof.
  induction zs as [|z zs IH]; intros acc; cbn.
  - now rewrite Z.add_0_r.
  - rewrite IH. f_equal. unfold total. cbn. lia.
Qed.

Lemma sum_ints (zs : list Z) : sum (map VInt zs) = Return (total zs).
Proof. unfold sum. now rewrite sum_from_ints. Qed.

Lemma max_from_ints (zs : list Z) :
  forall best, exists m,
    max_from (VInt best) (map VInt zs) = Return (VInt m) /\
    is_maximum m (best :: zs).
Proof.
  induction zs as [|z zs IH]; intros best; cbn.
  - exists best. split; [reflexivity|].
    split; [now left|]. constructor; [lia|constructor].
  - destruct (Z.ltb_spec best z) as [Hlt|Hge].
    + destruct (IH z) as (m & Hm & Hin & Hall).
      exists m. split; [exact Hm|].
      inversion Hall as [|? ? Hz Hzs]; subst.
      split.
      * right. exact Hin.
      * constructor; [lia|]. constructor; assumption.
    + destruct (IH best) as (m & Hm & Hin & Hall).
      exists m. split; [exact Hm|].
      inversion Hall as [|? ? Hb Hzs]; subst.
      split.
      * destruct Hin as [->|Hin]; [now left|right; now right].
      * constructor; [exact Hb|]. constructor; [lia|exact Hzs].
Qed.

Lemma max_ints (zs : list Z) :
  zs <> [] ->
  exists m, max (map VInt zs) = Return (VInt m) /\ is_maximum m zs.
Proof.
  destruct zs as [|z zs]; [congruence|]. intros _. cbn.
  apply max_from_ints.
Qed.

Lemma is_maximum_unique (m m' : Z) (zs : list Z) :
  is_maximum m zs -> is_maximum m' zs -> m = m'.
Proof.
  intros [Hin Hall] [Hin' Hall'].
  rewrite Forall_forall in Hall, Hall'.
  specialize (Hall _ Hin'). specialize (Hall' _ Hin). lia.
Qed.

Lemma str_int_inj (a b : Z) : str_int a = str_int b -> a = b.
Proof.
  unfold str_int. intros H.
  assert (Hnn : forall z, Z.to_int z <> Decimal.Pos Decimal.Nil /\
                         Z.to_int z <> Decimal.Neg Decimal.Nil).
  { intros [|p|p]; cbn; split; try discriminate;
      intros E; injection E; apply Unsigned.to_uint_nonnil. }
  assert (E : Some (Z.to_int a) = Some (Z.to_int b)).
  { rewrite <- (NilZero.isi (Z.to_int a)) by apply Hnn.
    rewrite <- (NilZero.isi (Z.to_int b)) by apply Hnn.
    now rewrite H. }
  injection E as E.
  rewrite <- (DecimalZ.of_to a), <- (DecimalZ.of_to b). now rewrite E.
Qed.

Lemma prefix_app (s t : string) : String.prefix s (s ++ t) = true.
Proof.
  induction s as [|c s IH]; cbn.
  - now destruct t.
  - destruct (ascii_dec c c) as [_|Hc]; [exact IH|congruence].
Qed.

End Builtins.

(** ** The validator *)

Section Validator.

(** On a dict of integers the validator only looks at the sum. *)
Lemma validate_workplan_ints (items : list (value * value)) (zs : list Z) :
  map snd items = map VInt zs ->
  validate_workplan (VDict items) =
    if total zs =? 100 then Return (VBool true)
    else Raise (ValuesDontSumTo100
                  ("The workplan parameter values should total 100, instead sums to "
                     ++ str_int (total zs) ++ ".")).
Proof.
  intros Hvs. unfold validate_workplan.
  cbn [isinstance type_of issubclass type_eqb values bind].
  rewrite Hvs, all_type_int_ints, sum_ints. cbn [bind].
  destruct (total zs =? 100); reflexivity.
Qed.

(** A dict holding a value whose class is not [int] is reported with the
    classes of the values that are not instances of [int]. *)
Lemma validate_workplan_not_ints (items : list (value * value)) :
  forallb (fun value => type_is value Tint) (map snd items) = false ->
  validate_workplan (VDict items) =
    Raise (ValuesNotTypeInt
             ("All workplan values must be integers, instead received type(s): "
                ++ str_type_list
                     (map type_of
                          (filter (fun value => negb (isinstance value Tint))
                                  (map snd items)))
                ++ ".")).
Proof.
  intros Hvs. unfold validate_workplan.
  cbn [isinstance type_of issubclass type_eqb values bind].
  rewrite Hvs. reflexivity.
Qed.

Lemma validate_workplan_not_dict (workplan : value) :
  type_of workplan <> Tdict ->
  validate_workplan workplan =
    Raise (InvalidParameterType
             ("The workplan parameter expects a dictionary, but received "
                ++ repr_type (type_of workplan) ++ ".")).
Proof.
  intros Hty. destruct workplan; try reflexivity.
  now contradiction Hty.
Qed.

(** The three ways the validator can end. *)
Lemma validate_workplan_cases (workplan : value) :
  (exists items zs,
      workplan = VDict items /\ map snd items = map VInt zs /\
      total zs = 100 /\
      validate_workplan workplan = Return (VBool true)) \/
  (exists items zs msg,
      workplan = VDict items /\ map snd items = map VInt zs /\
      total zs <> 100 /\
      validate_workplan workplan = Raise (ValuesDontSumTo100 msg)) \/
  (exists items msg,
      workplan = VDict items /\
      validate_workplan workplan = Raise (ValuesNotTypeInt msg)) \/
  (exists msg,
      type_of workplan <> Tdict /\
      validate_workplan workplan = Raise (InvalidParameterType msg)).
Proof.
  destruct workplan as [ | b | z | f | s | l | l | items ];
    try (right; right; right; eexists; split;
         [discriminate | reflexivity]).
  destruct (forallb (fun value => type_is value Tint) (map snd items))
    eqn:Hall.
  - destruct (all_type_int_inv _ Hall) as [zs Hzs].
    pose proof (validate_workplan_ints items zs Hzs) as Hv.
    revert Hv. destruct (Z.eqb_spec (total zs) 100) as [Ht|Ht]; intros Hv.
    + left. exists items, zs. repeat split; assumption.
    + right; left. eexists items, zs, _. repeat split; eassumption.
  - right; right; left.
    eexists items, _. split; [reflexivity|].
    now apply validate_workplan_not_ints.
Qed.

(** Whatever the validator returns is [True], and then the workplan is a
    non-empty dict of integers that sum to 100. *)
Lemma validate_workplan_return (workplan v : value) :
  validate_workplan workplan = Return v ->
  v = VBool true /\
  exists items zs,
    workplan = VDict items /\ map snd items = map VInt zs /\
    zs <> [] /\ total zs = 100.
Proof.
  intros Hret.
  destruct (validate_workplan_cases workplan)
    as [(items & zs & -> & Hzs & Ht & Hv)
       |[(items & zs & msg & _ & _ & _ & Hv)
        |[(items & msg & _ & Hv)|(msg & _ & Hv)]]];
    rewrite Hv in Hret; try discriminate Hret.
  injection Hret as <-. split; [reflexivity|].
  exists items, zs. repeat split; try assumption.
  intros ->. discriminate Ht.
Qed.

End Validator.

(** ** The chart builder *)

Section Builder.

Variable job_title : string.

(** The [try] block on a non-empty dict of integers. *)
Lemma build_figure_ints (items : list (value * value)) (zs : list Z) :
  map snd items = map VInt zs ->
  zs <> [] ->
  exists m,
    is_maximum m zs /\
    build_figure job_title (VDict items) =
      Return (Fig {| fig_data :=
                       [ {| r := map snd items;
                            theta := map fst items;
                            fill := "toself";
                            fillcolor := "#a1d99b";
                            line_color := "#a1d99b" |} ];
                     fig_layout :=
                       {| title := job_title ++ "<br>Responsibilities";
                          font_color := "#a1d99b";
                          polar_radialaxis :=
                            {| visible := true;
                               axis_color := "black";
                               linecolor := "green";
                               range := [VInt 0; VInt (m + 5)] |};
                          showlegend := false;
                          hovermode := "closest" |} |}).
Proof.
  intros Hzs Hne.
  destruct (max_ints zs Hne) as (m & Hmax & Hm).
  exists m. split; [exact Hm|].
  unfold build_figure. cbn [keys values bind].
  rewrite Hzs, Hmax. reflexivity.
Qed.

(** A validated workplan always yields a figure, and this is it. *)
Lemma position_radarchart_valid (workplan : value) :
  validate_workplan workplan = Return (VBool true) ->
  exists items zs m,
    workplan = VDict items /\
    map snd items = map VInt zs /\
    total zs = 100 /\
    is_maximum m zs /\
    position_radarchart job_title workplan =
      Return (Fig {| fig_data :=
                       [ {| r := map snd items;
                            theta := map fst items;
                            fill := "toself";
                            fillcolor := "#a1d99b";
                            line_color := "#a1d99b" |} ];
                     fig_layout :=
                       {| title := job_title ++ "<br>Responsibilities";
                          font_color := "#a1d99b";
                          polar_radialaxis :=
                            {| visible := true;
                               axis_color := "black";
                               linecolor := "green";
                               range := [VInt 0; VInt (m + 5)] |};
                          showlegend := false;
                          hovermode := "closest" |} |}).
Proof.
  intros Hv.
  destruct (validate_workplan_return _ _ Hv)
    as (_ & items & zs & -> & Hzs & Hne & Ht).
  destruct (build_figure_ints items zs Hzs Hne) as (m & Hm & Hfig).
  exists items, zs, m.
  split; [reflexivity|]. split; [exact Hzs|].
  split; [exact Ht|]. split; [exact Hm|].
  unfold position_radarchart. rewrite Hv. cbn [bind truthy].
  rewrite Hfig. reflexivity.
Qed.

(** A validation error leaves [position_radarchart] as it is. *)
Lemma position_radarchart_invalid (workplan : value) (e : exn) :
  validate_workplan workplan = Raise e ->
  position_radarchart job_title workplan = Raise e.
Proof.
  intros Hv. unfold position_radarchart. now rewrite Hv.
Qed.

(** Every call of the two functions stays inside the embedded fragment of
    Python. *)
Lemma validate_workplan_supported (workplan : value) :
  validate_workplan workplan <> Unsupported.
Proof.
  destruct (validate_workplan_cases workplan)
    as [(? & ? & _ & _ & _ & Hv)
       |[(? & ? & ? & _ & _ & _ & Hv)
        |[(? & ? & _ & Hv)|(? & _ & Hv)]]];
    rewrite Hv; discriminate.
Qed.

Lemma position_radarchart_supported (workplan : value) :
  position_radarchart job_title workplan <> Unsupported.
Proof.
  destruct (validate_workplan workplan) as [v|e|] eqn:Hv.
  - destruct (validate_workplan_return _ _ Hv) as [-> _].
    destruct (position_radarchart_valid _ Hv)
      as (? & ? & ? & _ & _ & _ & _ & Hfig).
    rewrite Hfig. discriminate.
  - rewrite (position_radarchart_invalid _ _ Hv). discriminate.
  - now apply validate_workplan_supported in Hv.
Qed.

End Builder.

(** ** Properties of the validator *)

(** C1: a dict whose values are all of class [int] and sum to exactly 100
    is accepted: [validate_workplan] returns [True]. *)
Theorem validate_workplan_accepts_sum_100
    (items : list (value * value)) (zs : list Z) :
  map snd items = map VInt zs ->
  total zs = 100 ->
  validate_workplan (VDict items) = Return (VBool true).
Proof.
  intros Hzs Ht.
  rewrite (validate_workplan_ints items zs Hzs).
  now rewrite Ht.
Qed.

Lemma validate_workplan_accepts_sum_100_witness :
  total [40; 35; 25] = 100 /\
  validate_workplan mechanic_workplan = Return (VBool true).
Proof.
  split; [reflexivity|].
  apply (validate_workplan_accepts_sum_100
           [ (VStr "repair", VInt 40); (VStr "inspection", VInt 35);
             (VStr "paperwork", VInt 25) ]
           [40; 35; 25]); reflexivity.
Defined.

(** C4: a dict whose values are all of class [int] but do not sum to 100
    is rejected with [ValuesDontSumTo100], and the message states the
    actual sum.  The empty dict sums to 0 and is rejected this way, so
    [position_radarchart] raises before its [try] block on an empty
    workplan, and it never hands back the [ValueError] that [max] raises on
    an empty sequence. *)
Theorem validate_workplan_rejects_other_sums :
  (forall (items : list (value * value)) (zs : list Z),
      map snd items = map VInt zs ->
      total zs <> 100 ->
      validate_workplan (VDict items) =
        Raise (ValuesDontSumTo100
                 ("The workplan parameter values should total 100, instead sums to "
                    ++ str_int (total zs) ++ "."))) /\
  validate_workplan (VDict []) =
    Raise (ValuesDontSumTo100
             "The workplan parameter values should total 100, instead sums to 0.") /\
  (forall job_title : string,
      position_radarchart job_title (VDict []) =
        Raise (ValuesDontSumTo100
                 "The workplan parameter values should total 100, instead sums to 0.")) /\
  (forall (job_title : string) (workplan : value),
      position_radarchart job_title workplan <> Return (Caught ValueError)).
Proof.
  split; [|split; [reflexivity|split; [reflexivity|]]].
  - intros items zs Hzs Ht.
    rewrite (validate_workplan_ints items zs Hzs).
    destruct (Z.eqb_spec (total zs) 100) as [E|_]; [contradiction|reflexivity].
  - intros job_title workplan.
    destruct (validate_workplan workplan) as [v|e|] eqn:Hv.
    + destruct (validate_workplan_return _ _ Hv) as [-> _].
      destruct (position_radarchart_valid job_title _ Hv)
        as (? & ? & ? & _ & _ & _ & _ & Hfig).
      rewrite Hfig. discriminate.
    + rewrite (position_radarchart_invalid job_title _ _ Hv). discriminate.
    + now apply validate_workplan_supported in Hv.
Qed.

Lemma validate_workplan_rejects_other_sums_witness :
  total [60; 30] <> 100 /\
  validate_workplan (VDict [ (VStr "repair", VInt 60);
                             (VStr "paperwork", VInt 30) ]) =
    Raise (ValuesDontSumTo100
             "The workplan parameter values should total 100, instead sums to 90.").
Proof.
  split; [discriminate|].
  apply (proj1 validate_workplan_rejects_other_sums
           [ (VStr "repair", VInt 60); (VStr "paperwork", VInt 30) ]
           [60; 30]); [reflexivity|discriminate].
Defined.

(** C5: on a dict holding a value that is not an integer the validator
    raises [ValuesNotTypeInt]; the message is meant to list the classes of
    the offending values.  With a Boolean among the values the validator
    rejects the dict for that value, and the message lists no class at
    all. *)
Theorem validate_workplan_bool_message :
  forallb (fun value => type_is value Tint)
          [VInt 99; VBool true] = false /\
  validate_workplan on_call_workplan =
    Raise (ValuesNotTypeInt
             "All workplan values must be integers, instead received type(s): [].").
Proof. split; reflexivity. Qed.

(** C6: an argument that is not a dict is rejected with
    [InvalidParameterType], and the message reports its class.  This test
    comes first: the two other errors and the value [True] only ever
    concern a dict. *)
Theorem validate_workplan_rejects_non_dict :
  (forall workplan : value,
      type_of workplan <> Tdict ->
      validate_workplan workplan =
        Raise (InvalidParameterType
                 ("The workplan parameter expects a dictionary, but received "
                    ++ repr_type (type_of workplan) ++ "."))) /\
  (forall (workplan : value) (msg : string),
      validate_workplan workplan = Raise (ValuesNotTypeInt msg) \/
      validate_workplan workplan = Raise (ValuesDontSumTo100 msg) \/
      validate_workplan workplan = Return (VBool true) ->
      type_of workplan = Tdict).
Proof.
  split.
  - exact validate_workplan_not_dict.
  - intros workplan msg H.
    destruct workplan; try reflexivity;
      cbn in H; destruct H as [H|[H|H]]; discriminate H.
Qed.

Lemma validate_workplan_rejects_non_dict_witness :
  type_of (VList [VFloat S754_nan; VInt 100]) <> Tdict /\
  validate_workplan (VList [VFloat S754_nan; VInt 100]) =
    Raise (InvalidParameterType
             "The workplan parameter expects a dictionary, but received <class 'list'>.").
Proof.
  split; [discriminate|].
  apply (proj1 validate_workplan_rejects_non_dict
           (VList [VFloat S754_nan; VInt 100])).
  discriminate.
Defined.

(** C7: the validator has no path that returns a false value: it returns
    [True] or raises one of its three errors.  Hence the [else] branch of
    [position_radarchart] is dead: the function is its [try] block run
    after a successful validation. *)
Theorem validate_workplan_no_false_path :
  (forall workplan : value,
      validate_workplan workplan = Return (VBool true) \/
      exists msg : string,
        validate_workplan workplan = Raise (InvalidParameterType msg) \/
        validate_workplan workplan = Raise (ValuesNotTypeInt msg) \/
        validate_workplan workplan = Raise (ValuesDontSumTo100 msg)) /\
  (forall workplan v : value,
      validate_workplan workplan = Return v -> truthy v = true) /\
  (forall (job_title : string) (workplan : value),
      position_radarchart job_title workplan =
        (_ <- validate_workplan workplan ;;
         try_except (build_figure job_title workplan)
                    (fun e => Return (Caught e)))).
Proof.
  split; [|split].
  - intros workplan.
    destruct (validate_workplan_cases workplan)
      as [(? & ? & _ & _ & _ & Hv)
         |[(? & ? & msg & _ & _ & _ & Hv)
          |[(? & msg & _ & Hv)|(msg & _ & Hv)]]];
      rewrite Hv; [now left| right; exists msg; auto ..].
  - intros workplan v Hv.
    now destruct (validate_workplan_return _ _ Hv) as [-> _].
  - intros job_title workplan. unfold position_radarchart.
    destruct (validate_workplan workplan) as [v|e|] eqn:Hv;
      [|reflexivity|reflexivity].
    destruct (validate_workplan_return _ _ Hv) as [-> _]. reflexivity.
Qed.

Lemma validate_workplan_no_false_path_witness :
  validate_workplan mechanic_workplan = Return (VBool true) /\
  truthy (VBool true) = true.
Proof.
  split; [reflexivity|].
  apply (proj1 (proj2 validate_workplan_no_false_path)
           mechanic_workplan (VBool true)).
  reflexivity.
Defined.

(** C10: negative values are not rejected: the workplan
    [{"a": -10, "b": 110}] is accepted, and [position_radarchart] builds
    its figure. *)
Theorem validate_workplan_accepts_negative :
  validate_workplan negative_workplan = Return (VBool true) /\
  forall job_title : string,
    exists fig : figure,
      position_radarchart job_title negative_workplan = Return (Fig fig) /\
      map r (fig_data fig) = [[VInt (-10); VInt 110]] /\
      range (polar_radialaxis (fig_layout fig)) = [VInt 0; VInt 115].
Proof.
  split; [reflexivity|].
  intros job_title. eexists. split; [reflexivity|]. split; reflexivity.
Qed.

(** ** Properties of the chart builder *)

(** C2: for a workplan that passes validation the figure holds one trace
    whose categories are the keys and whose radii are the values, both in
    the workplan's insertion order; the worked example yields the
    categories repair, inspection, paperwork and the values 40, 35, 25. *)
Theorem position_radarchart_keeps_order :
  (forall (job_title : string) (items : list (value * value)),
      validate_workplan (VDict items) = Return (VBool true) ->
      exists (fig : figure) (trace : Scatterpolar),
        position_radarchart job_title (VDict items) = Return (Fig fig) /\
        fig_data fig = [trace] /\
        theta trace = map fst items /\
        r trace = map snd items) /\
  (exists (fig : figure) (trace : Scatterpolar),
      position_radarchart "Auto Mechanic II" mechanic_workplan
        = Return (Fig fig) /\
      fig_data fig = [trace] /\
      theta trace = [VStr "repair"; VStr "inspection"; VStr "paperwork"] /\
      r trace = [VInt 40; VInt 35; VInt 25]).
Proof.
  split.
  - intros job_title items Hv.
    destruct (position_radarchart_valid job_title _ Hv)
      as (items' & zs & m & E & _ & _ & _ & Hfig).
    injection E as <-.
    rewrite Hfig. do 2 eexists.
    split; [reflexivity|]. split; [reflexivity|]. split; reflexivity.
  - do 2 eexists.
    split; [reflexivity|]. split; [reflexivity|]. split; reflexivity.
Qed.

Lemma position_radarchart_keeps_order_witness :
  validate_workplan negative_workplan = Return (VBool true) /\
  exists (fig : figure) (trace : Scatterpolar),
    position_radarchart "Analyst" negative_workplan = Return (Fig fig) /\
    fig_data fig = [trace] /\
    theta trace = [VStr "a"; VStr "b"] /\
    r trace = [VInt (-10); VInt 110].
Proof.
  split; [reflexivity|].
  apply (proj1 position_radarchart_keeps_order "Analyst"
           [ (VStr "a", VInt (-10)); (VStr "b", VInt 110) ]).
  reflexivity.
Defined.

(** C3: for a workplan that passes validation the axis range of the figure
    is [[0, m + 5]], where [m] is the greatest of the workplan's values. *)
Theorem position_radarchart_axis_range
    (job_title : string) (items : list (value * value)) :
  validate_workplan (VDict items) = Return (VBool true) ->
  exists (fig : figure) (zs : list Z) (m : Z),
    position_radarchart job_title (VDict items) = Return (Fig fig) /\
    map snd items = map VInt zs /\
    is_maximum m zs /\
    range (polar_radialaxis (fig_layout fig)) = [VInt 0; VInt (m + 5)].
Proof.
  intros Hv.
  destruct (position_radarchart_valid job_title _ Hv)
    as (items' & zs & m & E & Hzs & _ & Hm & Hfig).
  injection E as <-.
  rewrite Hfig. eexists _, zs, m.
  split; [reflexivity|]. split; [exact Hzs|]. split; [exact Hm|reflexivity].
Qed.

Lemma position_radarchart_axis_range_witness :
  validate_workplan mechanic_workplan = Return (VBool true) /\
  exists (fig : figure) (zs : list Z) (m : Z),
    position_radarchart "Auto Mechanic II" mechanic_workplan
      = Return (Fig fig) /\
    [VInt 40; VInt 35; VInt 25] = map VInt zs /\
    is_maximum m zs /\
    range (polar_radialaxis (fig_layout fig)) = [VInt 0; VInt (m + 5)].
Proof.
  split; [reflexivity|].
  apply (position_radarchart_axis_range "Auto Mechanic II"
           [ (VStr "repair", VInt 40); (VStr "inspection", VInt 35);
             (VStr "paperwork", VInt 25) ]).
  reflexivity.
Defined.

(** C8: when validation fails, [position_radarchart] raises that very
    exception, whatever the title: it returns nothing, so it builds no
    figure and hands back no caught exception. *)
Theorem position_radarchart_propagates
    (job_title : string) (workplan : value) (e : exn) :
  validate_workplan workplan = Raise e ->
  position_radarchart job_title workplan = Raise e /\
  forall res : chart_result,
    position_radarchart job_title workplan <> Return res.
Proof.
  intros Hv.
  rewrite (position_radarchart_invalid job_title _ _ Hv).
  split; [reflexivity|discriminate].
Qed.

Lemma position_radarchart_propagates_witness :
  validate_workplan on_call_workplan =
    Raise (ValuesNotTypeInt
             "All workplan values must be integers, instead received type(s): [].") /\
  position_radarchart "Auto Mechanic II" on_call_workplan =
    Raise (ValuesNotTypeInt
             "All workplan values must be integers, instead received type(s): [].").
Proof.
  split; [reflexivity|].
  apply (position_radarchart_propagates "Auto Mechanic II" on_call_workplan).
  reflexivity.
Defined.

(** C9, as the specification words it, fails on the worked example: the
    title of the figure is not the job title, a line break and the word
    Responsibilities. *)
Lemma position_radarchart_title_not_newline :
  validate_workplan mechanic_workplan = Return (VBool true) /\
  exists fig : figure,
    position_radarchart "Auto Mechanic II" mechanic_workplan
      = Return (Fig fig) /\
    title (fig_layout fig)
      <> "Auto Mechanic II" ++ newline ++ "Responsibilities".
Proof.
  split; [reflexivity|].
  eexists. split; [reflexivity|].
  apply String.eqb_neq. reflexivity.
Qed.

(** C9: for every title and every workplan that passes validation, the
    title of the figure is the job title followed by the markup [<br>] and
    the word Responsibilities, so it starts with the job title. *)
Theorem position_radarchart_title
    (job_title : string) (items : list (value * value)) :
  validate_workplan (VDict items) = Return (VBool true) ->
  exists fig : figure,
    position_radarchart job_title (VDict items) = Return (Fig fig) /\
    title (fig_layout fig) = job_title ++ "<br>Responsibilities" /\
    String.prefix job_title (title (fig_layout fig)) = true.
Proof.
  intros Hv.
  destruct (position_radarchart_valid job_title _ Hv)
    as (items' & zs & m & _ & _ & _ & _ & Hfig).
  rewrite Hfig. eexists.
  split; [reflexivity|]. split; [reflexivity|].
  apply prefix_app.
Qed.

Lemma position_radarchart_title_witness :
  validate_workplan mechanic_workplan = Return (VBool true) /\
  exists fig : figure,
    position_radarchart "Auto Mechanic II" mechanic_workplan
      = Return (Fig fig) /\
    title (fig_layout fig) = "Auto Mechanic II<br>Responsibilities" /\
    String.prefix "Auto Mechanic II" (title (fig_layout fig)) = true.
Proof.
  split; [reflexivity|].
  apply (position_radarchart_title "Auto Mechanic II"
           [ (VStr "repair", VInt 40); (VStr "inspection", VInt 35);
             (VStr "paperwork", VInt 25) ]).
  reflexivity.
Defined.

(** ** The position dictionary *)

Section PositionObject.

Lemma copy_fields_filled (position : list (value * value))
    (element t s x sc a w : value) :
  filled position ->
  getitem element "title" = Ok t ->
  getitem element "summary" = Ok s ->
  getitem element "expectations" = Ok x ->
  getitem element "scope" = Ok sc ->
  getitem element "activities" = Ok a ->
  getitem element "workplan" = Ok w ->
  copy_fields position element = Ok (position_dict t s x sc a w).
Proof.
  intros Hp Ht Hs Hx Hsc Ha Hw.
  unfold copy_fields, assign.
  destruct Hp as [->|(t0 & s0 & x0 & sc0 & a0 & w0 & ->)];
    rewrite Ht; cbn; rewrite Hs; cbn; rewrite Hx; cbn;
    rewrite Hsc; cbn; rewrite Ha; cbn; rewrite Hw; reflexivity.
Qed.

Lemma has_fields_inv (element : value) :
  has_fields element ->
  exists t s x sc a w,
    getitem element "title" = Ok t /\
    getitem element "summary" = Ok s /\
    getitem element "expectations" = Ok x /\
    getitem element "scope" = Ok sc /\
    getitem element "activities" = Ok a /\
    getitem element "workplan" = Ok w.
Proof.
  intros H.
  destruct (H "title") as [t Ht]; [cbn; tauto|].
  destruct (H "summary") as [s Hs]; [cbn; tauto|].
  destruct (H "expectations") as [x Hx]; [cbn; tauto|].
  destruct (H "scope") as [sc Hsc]; [cbn; tauto|].
  destruct (H "activities") as [a Ha]; [cbn; tauto|].
  destruct (H "workplan") as [w Hw]; [cbn; tauto|].
  now exists t, s, x, sc, a, w.
Qed.

Lemma for_each_element_last (init : list value)
    (last t s x sc a w : value) :
  Forall has_fields init ->
  getitem last "title" = Ok t ->
  getitem last "summary" = Ok s ->
  getitem last "expectations" = Ok x ->
  getitem last "scope" = Ok sc ->
  getitem last "activities" = Ok a ->
  getitem last "workplan" = Ok w ->
  forall position, filled position ->
    for_each_element (init ++ [last]) position
      = Ok (position_dict t s x sc a w).
Proof.
  intros Hinit Ht Hs Hx Hsc Ha Hw.
  induction Hinit as [|element init Hel _ IH]; intros position Hp; cbn.
  - now rewrite (copy_fields_filled position last t s x sc a w).
  - destruct (has_fields_inv element Hel)
      as (t' & s' & x' & sc' & a' & w' & H1 & H2 & H3 & H4 & H5 & H6).
    rewrite (copy_fields_filled position element t' s' x' sc' a' w')
      by assumption.
    cbn. apply IH. right. now exists t', s', x', sc', a', w'.
Qed.

Lemma setitem_not_nil (key : string) (v : value)
    (items : list (value * value)) :
  setitem key v items <> [].
Proof.
  destruct items as [|[k old] rest]; cbn; [discriminate|].
  destruct (is_key key k); discriminate.
Qed.

Lemma copy_fields_not_nil (position position' : list (value * value))
    (element : value) :
  copy_fields position element = Ok position' -> position' <> [].
Proof.
  unfold copy_fields, assign.
  repeat match goal with
         | |- context [getitem element ?k] =>
             destruct (getitem element k); cbn; try discriminate
         end.
  intros H. injection H as <-. apply setitem_not_nil.
Qed.

Lemma for_each_element_not_nil (elements : list value) :
  forall position position',
    (elements <> [] \/ position <> []) ->
    for_each_element elements position = Ok position' ->
    position' <> [].
Proof.
  induction elements as [|element rest IH]; intros position position' Hne; cbn.
  - intros H. injection H as <-. destruct Hne as [Hne|Hne]; congruence.
  - destruct (copy_fields position element) as [p| |] eqn:Hc; cbn;
      try discriminate.
    apply IH. right. eapply copy_fields_not_nil, Hc.
Qed.

Lemma copy_fields_inside (position : list (value * value))
    (element : value) :
  copy_fields position element <> Outside.
Proof.
  unfold copy_fields, assign, getitem.
  destruct element; cbn; try discriminate.
  repeat match goal with
         | |- context [lookup ?k items] =>
             destruct (lookup k items); cbn; try discriminate
         end.
Qed.

Lemma create_position_object_inside (data : value) :
  create_position_object data <> Outside.
Proof.
  unfold create_position_object.
  destruct data; cbn; try discriminate.
  generalize (@nil (value * value)).
  induction (map snd items) as [|element rest IH]; intros position; cbn.
  - discriminate.
  - pose proof (copy_fields_inside position element) as Hin.
    destruct (copy_fields position element) as [p| |]; cbn;
      [apply IH|discriminate|contradiction].
Qed.

Lemma create_position_object_dict (data v : value) :
  create_position_object data = Ok v -> exists position, v = VDict position.
Proof.
  unfold create_position_object.
  destruct (lift (values data)) as [elements| |]; cbn; try discriminate.
  destruct (for_each_element elements []) as [position| |]; cbn;
    try discriminate.
  intros H. injection H as <-. now exists position.
Qed.

Lemma copy_fields_first_missing (position element : list (value * value))
    (missing : string) :
  first_missing element = Some missing ->
  copy_fields position (VDict element) = Err (KeyError missing).
Proof.
  unfold first_missing, source_keys, copy_fields, assign, getitem.
  cbn [find].
  repeat match goal with
         | |- context [lookup ?k element] =>
             destruct (lookup k element); cbn;
             [|intros H; injection H as <-; reflexivity]
         end.
  discriminate.
Qed.

End PositionObject.

(** X1: when every position of the parsed file has the six fields, the
    dictionary built is that of the last position alone, under the keys
    title, job_summary, job_expectations, job_scope, job_activities and
    breakdown in this order. *)
Theorem create_position_object_last_wins
    (init : list (value * value)) (key last t s x sc a w : value) :
  Forall has_fields (map snd init) ->
  getitem last "title" = Ok t ->
  getitem last "summary" = Ok s ->
  getitem last "expectations" = Ok x ->
  getitem last "scope" = Ok sc ->
  getitem last "activities" = Ok a ->
  getitem last "workplan" = Ok w ->
  create_position_object (VDict (init ++ [(key, last)]))
    = Ok (VDict (position_dict t s x sc a w)).
Proof.
  intros Hinit Ht Hs Hx Hsc Ha Hw.
  unfold create_position_object. cbn [values lift result_bind].
  rewrite map_app. cbn [map snd].
  rewrite (for_each_element_last (map snd init) last t s x sc a w);
    try assumption; [reflexivity|now left].
Qed.

Lemma create_position_object_last_wins_witness :
  create_position_object positions_file
    = Ok (VDict (position_dict
                   (VStr "Auto Mechanic II") (VStr "Maintains the fleet.")
                   (VStr "Full time.") (VStr "Garage")
                   (VList [VStr "repairs"; VStr "inspections"])
                   mechanic_workplan)).
Proof.
  apply (create_position_object_last_wins
           [(VStr "intern", intern_entry)] (VStr "mechanic") mechanic_entry);
    try reflexivity.
  constructor; [|constructor].
  intros key Hin. cbn in Hin.
  repeat (destruct Hin as [<-|Hin]; [eexists; reflexivity|]).
  contradiction.
Defined.

(** X2: the first field an element lacks, in the order title, summary,
    expectations, scope, activities, workplan, is the one reported: the
    call raises [KeyError] with that key, whatever follows in the file. *)
Theorem create_position_object_missing_key
    (key : value) (element rest : list (value * value)) (missing : string) :
  first_missing element = Some missing ->
  create_position_object (VDict ((key, VDict element) :: rest))
    = Err (KeyError missing).
Proof.
  intros Hmiss.
  unfold create_position_object.
  cbn [values lift result_bind map snd for_each_element].
  now rewrite (copy_fields_first_missing [] element missing Hmiss).
Qed.

Lemma create_position_object_missing_key_witness :
  create_position_object
    (VDict [ (VStr "clerk",
              VDict [ (VStr "title", VStr "Clerk");
                      (VStr "workplan", mechanic_workplan) ]);
             (VStr "mechanic", mechanic_entry) ])
    = Err (KeyError "summary").
Proof.
  apply (create_position_object_missing_key (VStr "clerk")
           [ (VStr "title", VStr "Clerk");
             (VStr "workplan", mechanic_workplan) ]
           [ (VStr "mechanic", mechanic_entry) ] "summary").
  reflexivity.
Defined.

(** X3: on a dict the result is the empty dictionary exactly when the
    parsed file holds no position. *)
Theorem create_position_object_empty_iff (items : list (value * value)) :
  create_position_object (VDict items) = Ok (VDict []) <-> items = [].
Proof.
  split.
  - unfold create_position_object. cbn [values lift result_bind].
    destruct (for_each_element (map snd items) []) as [position| |] eqn:Hf;
      cbn; try discriminate.
    intros H. injection H as ->.
    destruct items as [|item items]; [reflexivity|].
    exfalso. eapply for_each_element_not_nil; [|exact Hf|reflexivity].
    left. discriminate.
  - intros ->. reflexivity.
Qed.

Lemma create_position_object_empty_iff_witness :
  create_position_object (VDict []) = Ok (VDict []).
Proof.
  apply (proj2 (create_position_object_empty_iff [])). reflexivity.
Defined.

(** ** The chart of a position dictionary *)



(** X5: the position is unpacked before anything is validated: without a
    title the call raises [KeyError] for title, with a title but no
    breakdown [KeyError] for breakdown, and on anything but a dict
    [TypeError], whatever the workplan is. *)
Theorem create_radarchart_unpacks_first :
  (forall position : list (value * value),
      lookup "title" position = None ->
      create_radarchart (VDict position) = Err (KeyError "title")) /\
  (forall (position : list (value * value)) (jobtitle : value),
      lookup "title" position = Some jobtitle ->
      lookup "breakdown" position = None ->
      create_radarchart (VDict position) = Err (KeyError "breakdown")) /\
  (forall position : value,
      type_of position <> Tdict ->
      create_radarchart position = Err TypeError).
Proof.
  split; [|split].
  - intros position Ht. unfold create_radarchart, getitem.
    now rewrite Ht.
  - intros position jobtitle Ht Hw. unfold create_radarchart, getitem.
    now rewrite Ht, Hw.
  - intros position Hty.
    destruct position; try reflexivity. now contradiction Hty.
Qed.

Lemma create_radarchart_unpacks_first_witness :
  create_radarchart (VDict [ (VStr "breakdown", VStr "forty percent") ])
    = Err (KeyError "title") /\
  create_radarchart (VDict [ (VStr "title", VStr "Clerk");
                             (VStr "workplan", mechanic_workplan) ])
    = Err (KeyError "breakdown") /\
  create_radarchart (VList [VStr "Clerk"]) = Err TypeError.
Proof.
  split; [|split].
  - apply (proj1 create_radarchart_unpacks_first). reflexivity.
  - apply (proj1 (proj2 create_radarchart_unpacks_first)
             _ (VStr "Clerk")); reflexivity.
  - apply (proj2 (proj2 create_radarchart_unpacks_first)). discriminate.
Defined.

(** X6: from the parsed file to the chart: when every position has the six
    fields and the last one has a string title, charting the dictionary
    built from the file is [position_radarchart] on the last position's
    title and workplan. *)
Theorem create_radarchart_of_position_object
    (init : list (value * value)) (key last s x sc a workplan : value)
    (job_title : string) :
  Forall has_fields (map snd init) ->
  getitem last "title" = Ok (VStr job_title) ->
  getitem last "summary" = Ok s ->
  getitem last "expectations" = Ok x ->
  getitem last "scope" = Ok sc ->
  getitem last "activities" = Ok a ->
  getitem last "workplan" = Ok workplan ->
  exists position : value,
    create_position_object (VDict (init ++ [(key, last)])) = Ok position /\
    create_radarchart position
      = lift (position_radarchart job_title workplan).
Proof.
  intros Hinit Ht Hs Hx Hsc Ha Hw.
  unfold create_position_object. cbn [values lift result_bind].
  rewrite map_app. cbn [map snd].
  rewrite (for_each_element_last (map snd init) last
             (VStr job_title) s x sc a workplan);
    try assumption; [|now left].
  eexists. split; [reflexivity|].
  unfold create_radarchart, position_radarchart. cbn.
  destruct (validate_workplan workplan) as [ok|e|]; cbn; try reflexivity.
  destruct (truthy ok); reflexivity.
Qed.

Lemma create_radarchart_of_position_object_witness :
  exists position : value,
    create_position_object positions_file = Ok position /\
    create_radarchart position
      = lift (position_radarchart "Auto Mechanic II" mechanic_workplan).
Proof.
  apply (create_radarchart_of_position_object
           [(VStr "intern", intern_entry)] (VStr "mechanic") mechanic_entry
           (VStr "Maintains the fleet.") (VStr "Full time.") (VStr "Garage")
           (VList [VStr "repairs"; VStr "inspections"]));
    try reflexivity.
  constructor; [|constructor].
  intros key Hin. cbn in Hin.
  repeat (destruct Hin as [<-|Hin]; [eexists; reflexivity|]).
  contradiction.
Defined.

(** ** File names *)

Section Splitting.

Lemma append_empty_r (s : string) : s ++ "" = s.
Proof. induction s as [|c s IH]; cbn; [reflexivity|now rewrite IH]. Qed.

Lemma append_assoc (s t u : string) : (s ++ t) ++ u = s ++ (t ++ u).
Proof. induction s as [|c s IH]; cbn; [reflexivity|now rewrite IH]. Qed.

(** Whether a string starts with a dot depends on its first character. *)
Lemma prefix_dot (c : ascii) (s t : string) :
  String.prefix "." (String c s) = String.prefix "." (String c t).
Proof.
  cbn -[ascii_dec].
  destruct (ascii_dec "." c); [now destruct s, t|reflexivity].
Qed.

Lemma occurs_dot_cons (c : ascii) (s : string) :
  occurs "." (String c s) = String.prefix "." (String c "") || occurs "." s.
Proof. cbn [occurs]. now rewrite (prefix_dot c s ""). Qed.

Lemma occurs_dot_app (s t : string) :
  occurs "." (s ++ t) = occurs "." s || occurs "." t.
Proof.
  induction s as [|c s IH].
  - reflexivity.
  - change (String c s ++ t) with (String c (s ++ t)).
    rewrite !occurs_dot_cons, IH. now rewrite orb_assoc.
Qed.

Lemma occurs_cons_false (sep : string) (c : ascii) (s : string) :
  occurs sep (String c s) = false ->
  String.prefix sep (String c s) = false /\ occurs sep s = false.
Proof. cbn [occurs]. apply orb_false_iff. Qed.

(** No separator, one piece. *)
Lemma split_from_none (sep s : string) :
  occurs sep s = false ->
  forall piece, split_from sep 0 piece s = [piece ++ s].
Proof.
  induction s as [|c s IH]; intros Hocc piece.
  - cbn. now rewrite append_empty_r.
  - apply occurs_cons_false in Hocc as [Hpre Hocc].
    cbn [split_from]. rewrite Hpre, (IH Hocc).
    now rewrite append_assoc.
Qed.

Lemma split_from_skip (sep x : string) :
  forall piece s,
    split_from sep (String.length x) piece (x ++ s)
      = split_from sep 0 piece s.
Proof.
  induction x as [|c x IH]; intros piece s.
  - reflexivity.
  - cbn. apply IH.
Qed.

(** A separator at the head closes the current piece. *)
Lemma split_from_hit (c : ascii) (sep piece s : string) :
  split_from (String c sep) 0 piece (String c sep ++ s)
    = piece :: split_from (String c sep) 0 "" s.
Proof.
  change (String c sep ++ s) with (String c (sep ++ s)).
  cbn [split_from].
  change (String c (sep ++ s)) with (String c sep ++ s).
  rewrite prefix_app. cbn [String.length Nat.pred].
  now rewrite split_from_skip.
Qed.

(** Splitting at dots: the first piece is the stem. *)
Lemma split_from_stem (stem tail : string) :
  occurs "." stem = false ->
  is_extension tail ->
  forall piece, exists more,
    split_from "." 0 piece (stem ++ tail) = (piece ++ stem) :: more.
Proof.
  intros Hocc Htail.
  induction stem as [|c stem IH]; intros piece.
  - rewrite append_empty_r. cbn [append].
    destruct Htail as [->|[rest ->]].
    + now exists [].
    + eexists. apply (split_from_hit "." "" piece rest).
  - rewrite occurs_dot_cons in Hocc.
    apply orb_false_iff in Hocc as [Hc Hocc].
    change (String c stem ++ tail) with (String c (stem ++ tail)).
    cbn [split_from]. rewrite (prefix_dot c (stem ++ tail) ""), Hc.
    destruct (IH Hocc (piece ++ String c "")) as [more Hmore].
    exists more. rewrite Hmore. now rewrite append_assoc.
Qed.

(** The pieces of a string without dots have no dots. *)
Lemma split_from_no_dot (sep s : string) :
  forall skip piece,
    occurs "." piece = false ->
    occurs "." s = false ->
    Forall (fun p => occurs "." p = false) (split_from sep skip piece s).
Proof.
  induction s as [|c s IH]; intros skip piece Hp Hs.
  - cbn. now constructor.
  - rewrite occurs_dot_cons in Hs.
    apply orb_false_iff in Hs as [Hc Hs].
    cbn [split_from]. destruct skip as [|k].
    + destruct (String.prefix sep (String c s)).
      * constructor; [exact Hp|]. now apply IH.
      * apply IH; [|exact Hs].
        rewrite occurs_dot_app, Hp.
        rewrite occurs_dot_cons, Hc. reflexivity.
    + now apply IH.
Qed.

(** The first piece of a split at dots has no dot. *)
Lemma split_from_dot_head (s : string) :
  forall piece p more,
    occurs "." piece = false ->
    split_from "." 0 piece s = p :: more ->
    occurs "." p = false.
Proof.
  induction s as [|c s IH]; intros piece p more Hp; cbn [split_from].
  - intros H. now injection H as <- _.
  - destruct (String.prefix "." (String c s)) eqn:Hc.
    + intros H. now injection H as <- _.
    + apply IH.
      rewrite occurs_dot_app, Hp, occurs_dot_cons.
      now rewrite (prefix_dot c "" s), Hc.
Qed.

Lemma split_from_not_nil (sep s : string) :
  forall skip piece, split_from sep skip piece s <> [].
Proof.
  induction s as [|c s IH]; intros skip piece; cbn [split_from].
  - discriminate.
  - destruct skip; [|apply IH].
    destruct (String.prefix sep (String c s)); [discriminate|apply IH].
Qed.

Lemma item_In {A : Type} (parts : list A) (i : nat) (x : A) :
  item parts i = Ok x -> In x parts.
Proof.
  unfold item. destruct (nth_error parts i) eqn:Hn; [|discriminate].
  intros H. injection H as <-. eapply nth_error_In, Hn.
Qed.

End Splitting.

(** X7: round trip with the name under which [save_plot] stores a chart:
    a path made of the directory, a name and an extension gives back the
    name, provided neither directory nor name has a dot and the directory
    does not occur in the name. *)
Theorem strip_filename_round_trip (directory name tail : string) :
  directory <> "" ->
  occurs "." directory = false ->
  occurs "." name = false ->
  occurs directory name = false ->
  is_extension tail ->
  strip_filename (directory ++ name ++ tail) directory = Ok name.
Proof.
  intros Hne Hd Hn Hocc Htail.
  unfold strip_filename, split. cbn [result_bind].
  rewrite <- append_assoc.
  destruct (split_from_stem (directory ++ name) tail) with (piece := "")
    as [more ->]; [|exact Htail|].
  { now rewrite occurs_dot_app, Hd, Hn. }
  cbn [item nth_error result_bind append].
  destruct directory as [|c sep]; [contradiction|].
  rewrite split_from_hit, (split_from_none _ _ Hocc).
  reflexivity.
Qed.

Lemma strip_filename_round_trip_witness :
  strip_filename
    ("data/charts/" ++ "Auto Mechanic II 2019-09-10" ++ ".png")
    "data/charts/"
    = Ok "Auto Mechanic II 2019-09-10".
Proof.
  apply (strip_filename_round_trip
           "data/charts/" "Auto Mechanic II 2019-09-10" ".png");
    try reflexivity.
  - discriminate.
  - right. now exists "png".
Defined.

(** X8: the name returned never has a dot: whatever follows the first dot
    of the path is dropped, not only the extension. *)
Theorem strip_filename_no_dot (image_filename directory name : string) :
  strip_filename image_filename directory = Ok name ->
  occurs "." name = false.
Proof.
  unfold strip_filename, split. cbn [result_bind].
  destruct (split_from "." 0 "" image_filename) as [|stem more] eqn:Hs;
    [discriminate|].
  cbn [item nth_error result_bind].
  destruct directory as [|c sep]; [discriminate|]. cbn [result_bind].
  destruct (item (split_from (String c sep) 0 "" stem) 1)
    as [n| |] eqn:Hi; cbn; try discriminate.
  intros H. injection H as <-.
  pose proof (split_from_dot_head image_filename "" stem more eq_refl Hs)
    as Hstem.
  pose proof (split_from_no_dot (String c sep) stem 0 "" eq_refl Hstem)
    as Hall.
  rewrite Forall_forall in Hall. apply Hall. eapply item_In, Hi.
Qed.

Lemma strip_filename_no_dot_witness :
  strip_filename "data/charts/Sr. Analyst 2019-09-10.png" "data/charts/"
    = Ok "Sr" /\
  occurs "." "Sr" = false.
Proof.
  split; [reflexivity|].
  apply (strip_filename_no_dot
           "data/charts/Sr. Analyst 2019-09-10.png" "data/charts/" "Sr").
  reflexivity.
Defined.

(** X9: a path whose stem does not contain the directory has no second
    piece: the call raises [IndexError]; an empty directory raises
    [ValueError]. *)
Theorem strip_filename_missing_directory :
  (forall directory stem tail : string,
      directory <> "" ->
      occurs "." stem = false ->
      occurs directory stem = false ->
      is_extension tail ->
      strip_filename (stem ++ tail) directory = Err IndexError) /\
  (forall image_filename : string,
      strip_filename image_filename "" = Err (Exn ValueError)).
Proof.
  split.
  - intros directory stem tail Hne Hs Hocc Htail.
    unfold strip_filename, split. cbn [result_bind].
    destruct (split_from_stem stem tail Hs Htail "") as [more ->].
    cbn [item nth_error result_bind append].
    destruct directory as [|c sep]; [contradiction|].
    now rewrite (split_from_none _ _ Hocc).
  - intros image_filename.
    unfold strip_filename, split. cbn [result_bind].
    pose proof (split_from_not_nil "." image_filename 0 "") as Hne.
    destruct (split_from "." 0 "" image_filename); [contradiction|].
    reflexivity.
Qed.

Lemma strip_filename_missing_directory_witness :
  strip_filename ("charts/Analyst1" ++ ".png") "data/charts/"
    = Err IndexError.
Proof.
  apply (proj1 strip_filename_missing_directory
           "data/charts/" "charts/Analyst1" ".png");
    try reflexivity.
  - discriminate.
  - right. now exists "png".
Defined.

(** ** Waiting for the image file *)

(** Unfolds a run of [ensure_filepath_exists] and splits on every answer
    of [os.path.exists] it asks for. *)
Ltac run_probes w filename :=
  unfold ensure_filepath_exists, io_bind, io_try, io_ret, io_raise,
    path_exists, sleep, print, missing_path_line;
  cbn;
  repeat match goal with
         | |- context [exists_answer w ?n filename] =>
             destruct (exists_answer w n filename) eqn:?; cbn
         end.

(** X10: the call returns the file name exactly when one of its first six
    looks (the one on entry and the five after a sleep) finds the file;
    otherwise it raises [UnboundLocalError] for its variable [path]. *)
Theorem ensure_filepath_exists_outcome (filename : string) (w : world) :
  (fst (ensure_filepath_exists filename w) = Ok filename /\
   exists i : nat,
     (i <= 5)%nat /\ exists_answer w (i + checks w) filename = true) \/
  (fst (ensure_filepath_exists filename w) = Err (UnboundLocalError "path") /\
   forall i : nat,
     (i <= 5)%nat -> exists_answer w (i + checks w) filename = false).
Proof.
  run_probes w filename;
    first
      [ left; split; [reflexivity|];
        first [ exists 0%nat; split; [lia|assumption]
              | exists 1%nat; split; [lia|assumption]
              | exists 2%nat; split; [lia|assumption]
              | exists 3%nat; split; [lia|assumption]
              | exists 4%nat; split; [lia|assumption]
              | exists 5%nat; split; [lia|assumption] ]
      | right; split; [reflexivity|];
        intros i Hi;
        destruct i as [|[|[|[|[|[|i]]]]]]; cbn; try assumption; lia ].
Qed.

Lemma ensure_filepath_exists_outcome_witness :
  (fst (ensure_filepath_exists "data/charts/a.png" late_world)
     = Ok "data/charts/a.png" /\
   exists i : nat,
     (i <= 5)%nat /\
     exists_answer late_world (i + checks late_world) "data/charts/a.png"
       = true) \/
  (fst (ensure_filepath_exists "data/charts/a.png" late_world)
     = Err (UnboundLocalError "path") /\
   forall i : nat,
     (i <= 5)%nat ->
     exists_answer late_world (i + checks late_world) "data/charts/a.png"
       = false).
Proof.
  apply (ensure_filepath_exists_outcome "data/charts/a.png" late_world).
Defined.

(** X11: the call sleeps at most 15 seconds in all and looks for the file
    at least twice and at most seven times. *)
Theorem ensure_filepath_exists_bounds (filename : string) (w : world) :
  slept w <= slept (snd (ensure_filepath_exists filename w))
          <= slept w + 15 /\
  (2 + checks w <= checks (snd (ensure_filepath_exists filename w))
                <= 7 + checks w)%nat.
Proof.
  run_probes w filename; split; lia.
Qed.

(** X12: when the file is first found at look number [k] (0 on entry, 1
    to 5 after the sleeps), the call has slept 1 + ... + k seconds and
    has looked k + 2 times. *)
Theorem ensure_filepath_exists_latency
    (filename : string) (w : world) (k : nat) :
  (k <= 5)%nat ->
  (forall i : nat,
      (i < k)%nat -> exists_answer w (i + checks w) filename = false) ->
  exists_answer w (k + checks w) filename = true ->
  slept (snd (ensure_filepath_exists filename w))
    = slept w + Z.of_nat (k * (k + 1) / 2) /\
  checks (snd (ensure_filepath_exists filename w)) = (k + 2 + checks w)%nat.
Proof.
  intros Hk Hbefore Hfound.
  assert (H0 : (0 < k)%nat -> exists_answer w (checks w) filename = false)
    by (intros H; exact (Hbefore 0%nat H)).
  assert (H1 : (1 < k)%nat ->
               exists_answer w (S (checks w)) filename = false)
    by (intros H; exact (Hbefore 1%nat H)).
  assert (H2 : (2 < k)%nat ->
               exists_answer w (S (S (checks w))) filename = false)
    by (intros H; exact (Hbefore 2%nat H)).
  assert (H3 : (3 < k)%nat ->
               exists_answer w (S (S (S (checks w)))) filename = false)
    by (intros H; exact (Hbefore 3%nat H)).
  assert (H4 : (4 < k)%nat ->
               exists_answer w (S (S (S (S (checks w))))) filename = false)
    by (intros H; exact (Hbefore 4%nat H)).
  clear Hbefore.
  destruct k as [|[|[|[|[|[|k]]]]]]; [ | | | | | | lia];
    cbn [Nat.add] in Hfound;
    try (specialize (H0 ltac:(lia)));
    try (specialize (H1 ltac:(lia)));
    try (specialize (H2 ltac:(lia)));
    try (specialize (H3 ltac:(lia)));
    try (specialize (H4 ltac:(lia)));
    run_probes w filename; try congruence.
  all: split; try reflexivity; lia.
Qed.

Lemma ensure_filepath_exists_latency_witness :
  slept (snd (ensure_filepath_exists "data/charts/a.png" late_world)) = 3 /\
  checks (snd (ensure_filepath_exists "data/charts/a.png" late_world))
    = 4%nat.
Proof.
  apply (ensure_filepath_exists_latency "data/charts/a.png" late_world 2).
  - lia.
  - intros i Hi. destruct i as [|[|i]]; [reflexivity|reflexivity|lia].
  - reflexivity.
Defined.

(** X13: when none of the seven looks finds the file, the call raises
    [UnboundLocalError] after sleeping the full 15 seconds and printing
    its error line once. *)
Theorem ensure_filepath_exists_never_found (filename : string) (w : world) :
  (forall i : nat,
      (i <= 6)%nat -> exists_answer w (i + checks w) filename = false) ->
  ensure_filepath_exists filename w
    = (Err (UnboundLocalError "path"),
       {| exists_answer := exists_answer w;
          checks := 7 + checks w;
          slept := slept w + 15;
          printed := printed w ++ [missing_path_line filename] |}).
Proof.
  intros Hnone.
  pose proof (Hnone 0%nat ltac:(lia)) as H0.
  pose proof (Hnone 1%nat ltac:(lia)) as H1.
  pose proof (Hnone 2%nat ltac:(lia)) as H2.
  pose proof (Hnone 3%nat ltac:(lia)) as H3.
  pose proof (Hnone 4%nat ltac:(lia)) as H4.
  pose proof (Hnone 5%nat ltac:(lia)) as H5.
  pose proof (Hnone 6%nat ltac:(lia)) as H6.
  cbn [Nat.add] in H0, H1, H2, H3, H4, H5, H6.
  run_probes w filename; try congruence.
  do 2 f_equal. lia.
Qed.

Lemma ensure_filepath_exists_never_found_witness :
  ensure_filepath_exists "data/charts/a.png" barren_world
    = (Err (UnboundLocalError "path"),
       {| exists_answer := exists_answer barren_world;
          checks := 7;
          slept := 15;
          printed := [missing_path_line "data/charts/a.png"] |}).
Proof.
  apply (ensure_filepath_exists_never_found "data/charts/a.png" barren_world).
  intros i _. reflexivity.
Defined.

(** X14: the error line is printed exactly when the last look fails to
    find the file, also when a path is returned because an earlier look
    found it. *)
Theorem ensure_filepath_exists_report (filename : string) (w : world) :
  printed (snd (ensure_filepath_exists filename w))
    = if exists_answer w
           (Nat.pred (checks (snd (ensure_filepath_exists filename w))))
           filename
      then printed w
      else (printed w ++ [missing_path_line filename])%list.
Proof.
  run_probes w filename;
    repeat match goal with
           | H : exists_answer w ?n filename = _
             |- context [exists_answer w ?n filename] => rewrite H
           end;
    try congruence; reflexivity.
Qed.

(** ** Publishing the chart *)

Section Publishing.

(** The name of a chart stored in the default directory. *)
Lemma strip_charts_filename (name tail : string) :
  occurs "." name = false ->
  occurs charts_directory name = false ->
  is_extension tail ->
  strip_filename (charts_directory ++ name ++ tail) charts_directory
    = Ok name.
Proof.
  intros Hn Hocc Htail.
  unfold strip_filename, split. cbn [result_bind].
  rewrite <- append_assoc.
  destruct (split_from_stem (charts_directory ++ name) tail)
    with (piece := "") as [more ->]; [|exact Htail|].
  { now rewrite occurs_dot_app, Hn. }
  cbn [item nth_error result_bind append].
  unfold charts_directory in *.
  rewrite split_from_hit, (split_from_none _ _ Hocc).
  reflexivity.
Qed.

Lemma truthy_name (name : string) : name <> "" -> truthy (VStr name) = true.
Proof.
  intros Hne. cbn. apply negb_true_iff. now apply String.eqb_neq.
Qed.

End Publishing.

(** X15: when the file name cannot be shortened, [publish_chart] prints
    its error line, then raises [UnboundLocalError] for its variable
    [stripped]; the chart service is not called. *)
Theorem publish_chart_unshortened
    (plot : chart_result -> string -> string -> string -> io string)
    (filename fileoption : string) (figure : chart_result)
    (e : error) (w : world) :
  strip_filename filename charts_directory = Err e ->
  publish_chart plot filename figure fileoption w
    = (Err (UnboundLocalError "stripped"),
       {| exists_answer := exists_answer w;
          checks := checks w;
          slept := slept w;
          printed := printed w
                     ++ ["Error: function failed to shorten filename "
                           ++ filename] |}).
Proof.
  intros Hstrip.
  unfold publish_chart, io_bind, io_try, pure. rewrite Hstrip.
  reflexivity.
Qed.

Lemma publish_chart_unshortened_witness :
  publish_chart plot_ok "charts/Analyst1.png"
      (Caught ValueError) "overwrite" barren_world
    = (Err (UnboundLocalError "stripped"),
       {| exists_answer := exists_answer barren_world;
          checks := 0;
          slept := 0;
          printed :=
            ["Error: function failed to shorten filename charts/Analyst1.png"]
       |}).
Proof.
  apply (publish_chart_unshortened plot_ok "charts/Analyst1.png" "overwrite"
           (Caught ValueError) IndexError barren_world).
  reflexivity.
Defined.

(** X16: a chart stored in [data/charts/] under a non-empty name is
    published under that name, publicly, with the given file option; what
    the chart service returns or raises is what [publish_chart] returns or
    raises. *)
Theorem publish_chart_publishes
    (plot : chart_result -> string -> string -> string -> io string)
    (name tail fileoption : string) (figure : chart_result) (w : world) :
  name <> "" ->
  occurs "." name = false ->
  occurs charts_directory name = false ->
  is_extension tail ->
  publish_chart plot (charts_directory ++ name ++ tail) figure fileoption w
    = match plot figure fileoption "public" name w with
      | (Ok url, w') => (Ok (VStr url), w')
      | (Err e, w') => (Err e, w')
      | (Outside, w') => (Outside, w')
      end.
Proof.
  intros Hne Hn Hocc Htail.
  unfold publish_chart, io_bind, io_try, pure.
  rewrite (strip_charts_filename name tail Hn Hocc Htail).
  cbn [io_ret]. rewrite (truthy_name name Hne).
  destruct (plot figure fileoption "public" name w) as [[url|e|] w'];
    reflexivity.
Qed.

Lemma publish_chart_publishes_witness :
  publish_chart plot_ok
      ("data/charts/" ++ "Auto Mechanic II 2019-09-10" ++ ".png")
      (Caught ValueError) "overwrite" barren_world
    = (Ok (VStr "https://plot.ly/~office/Auto Mechanic II 2019-09-10"),
       barren_world).
Proof.
  apply (publish_chart_publishes plot_ok
           "Auto Mechanic II 2019-09-10" ".png" "overwrite"
           (Caught ValueError) barren_world);
    try reflexivity.
  - discriminate.
  - right. now exists "png".
Defined.

(** X17: a file in [data/charts/] with an empty name is not published:
    the call returns [None], prints nothing and does not call the chart
    service. *)
Theorem publish_chart_nameless
    (plot : chart_result -> string -> string -> string -> io string)
    (tail fileoption : string) (figure : chart_result) (w : world) :
  is_extension tail ->
  publish_chart plot (charts_directory ++ tail) figure fileoption w
    = (Ok VNone, w).
Proof.
  intros Htail.
  unfold publish_chart, io_bind, io_try, pure.
  change (charts_directory ++ tail) with (charts_directory ++ "" ++ tail).
  rewrite (strip_charts_filename "" tail eq_refl eq_refl Htail).
  reflexivity.
Qed.

Lemma publish_chart_nameless_witness :
  publish_chart plot_ok ("data/charts/" ++ ".png")
      (Caught ValueError) "overwrite" barren_world
    = (Ok VNone, barren_world).
Proof.
  apply (publish_chart_nameless plot_ok ".png" "overwrite"
           (Caught ValueError) barren_world).
  right. now exists "png".
Defined.

(** ** Reading a position *)

(** X18: [get_position] never raises: whatever reading the file does, it
    returns [None] or a dictionary. *)
Theorem get_position_never_raises
    (read_position_file : string -> io value)
    (yaml_file : string) (w : world) :
  fst (read_position_file yaml_file w) <> Outside ->
  exists v : value,
    fst (get_position read_position_file yaml_file w) = Ok v /\
    (v = VNone \/ exists position, v = VDict position).
Proof.
  intros Hin.
  unfold get_position, io_try, io_bind, pure.
  destruct (read_position_file yaml_file w) as [[data|e|] w1];
    cbn in Hin |- *.
  - destruct (truthy data).
    + pose proof (create_position_object_inside data) as Hc.
      destruct (create_position_object data) as [v|e|] eqn:Hv; cbn.
      * exists v. split; [reflexivity|]. right.
        eapply create_position_object_dict, Hv.
      * exists VNone. split; [reflexivity|now left].
      * contradiction.
    + exists VNone. split; [reflexivity|now left].
  - exists VNone. split; [reflexivity|now left].
  - contradiction.
Qed.

Lemma get_position_never_raises_witness :
  exists v : value,
    fst (get_position (fun _ => io_raise TypeError) "clerk.yaml" barren_world)
      = Ok v /\
    (v = VNone \/ exists position, v = VDict position).
Proof.
  apply (get_position_never_raises
           (fun _ => io_raise TypeError) "clerk.yaml" barren_world).
  discriminate.
Defined.

(** X19: when the file parses to positions that all have the six fields,
    [get_position] returns the dictionary of the last one and prints
    nothing. *)
Theorem get_position_last
    (read_position_file : string -> io value) (yaml_file : string)
    (w w1 : world) (init : list (value * value))
    (key last t s x sc a wp : value) :
  read_position_file yaml_file w = (Ok (VDict (init ++ [(key, last)])), w1) ->
  Forall has_fields (map snd init) ->
  getitem last "title" = Ok t ->
  getitem last "summary" = Ok s ->
  getitem last "expectations" = Ok x ->
  getitem last "scope" = Ok sc ->
  getitem last "activities" = Ok a ->
  getitem last "workplan" = Ok wp ->
  get_position read_position_file yaml_file w
    = (Ok (VDict (position_dict t s x sc a wp)), w1).
Proof.
  intros Hread Hinit Ht Hs Hx Hsc Ha Hw.
  unfold get_position, io_try, io_bind, pure. rewrite Hread.
  assert (Htruthy : truthy (VDict (init ++ [(key, last)])) = true).
  { cbn. rewrite length_app. cbn. now rewrite Nat.add_comm. }
  rewrite Htruthy.
  unfold create_position_object. cbn [values lift result_bind].
  rewrite map_app. cbn [map snd].
  rewrite (for_each_element_last (map snd init) last t s x sc a wp);
    try assumption; [reflexivity|now left].
Qed.

Lemma get_position_last_witness :
  get_position (read_as positions_file) "positions.yaml" barren_world
    = (Ok (VDict (position_dict
                    (VStr "Auto Mechanic II") (VStr "Maintains the fleet.")
                    (VStr "Full time.") (VStr "Garage")
                    (VList [VStr "repairs"; VStr "inspections"])
                    mechanic_workplan)),
       barren_world).
Proof.
  apply (get_position_last (read_as positions_file) "positions.yaml"
           barren_world barren_world
           [(VStr "intern", intern_entry)] (VStr "mechanic") mechanic_entry);
    try reflexivity.
  constructor; [|constructor].
  intros key Hin. cbn in Hin.
  repeat (destruct Hin as [<-|Hin]; [eexists; reflexivity|]).
  contradiction.
Defined.

(** X20: when the first position of the file lacks a field,
    [get_position] swallows the [KeyError]: it prints one line that does
    not name the field and returns [None]. *)
Theorem get_position_missing_field
    (read_position_file : string -> io value) (yaml_file : string)
    (w w1 : world) (key : value) (element rest : list (value * value))
    (missing : string) :
  read_position_file yaml_file w
    = (Ok (VDict ((key, VDict element) :: rest)), w1) ->
  first_missing element = Some missing ->
  get_position read_position_file yaml_file w
    = (Ok VNone,
       {| exists_answer := exists_answer w1;
          checks := checks w1;
          slept := slept w1;
          printed := printed w1
                     ++ ["Error: create_position_object() method failed"] |}).
Proof.
  intros Hread Hmiss.
  unfold get_position, io_try, io_bind, pure. rewrite Hread.
  cbn [truthy List.length Nat.eqb negb].
  unfold create_position_object.
  cbn [values lift result_bind map snd for_each_element].
  rewrite (copy_fields_first_missing [] element missing Hmiss).
  reflexivity.
Qed.

Lemma get_position_missing_field_witness :
  get_position (read_as clerk_file) "clerk.yaml" barren_world
    = (Ok VNone,
       {| exists_answer := exists_answer barren_world;
          checks := 0;
          slept := 0;
          printed := ["Error: create_position_object() method failed"] |}).
Proof.
  apply (get_position_missing_field (read_as clerk_file) "clerk.yaml"
           barren_world barren_world (VStr "clerk")
           [ (VStr "title", VStr "Clerk");
             (VStr "workplan", mechanic_workplan) ]
           [ (VStr "mechanic", mechanic_entry) ] "summary");
    reflexivity.
Defined.

(** ** Publishing from chart.py *)

(** X21: when the job's workplan fails validation, [publish_chart] of
    [chart.py] raises that validation error and leaves the world as it
    was: the chart service is not called. *)
Theorem chart_publish_chart_invalid
    (plot : chart_result -> string -> string -> io string)
    (job : Chart.Position) (fileoption text : string) (e : exn) (w : world) :
  str_value (Chart.title job) = Ok text ->
  validate_workplan (Chart.workplan job) = Raise e ->
  Chart.publish_chart plot job fileoption w = (Err (Exn e), w).
Proof.
  intros Htext Hv.
  unfold Chart.publish_chart, io_try, io_bind, pure.
  rewrite Htext. cbn [result_bind].
  now rewrite (position_radarchart_invalid text _ _ Hv).
Qed.

Lemma chart_publish_chart_invalid_witness :
  Chart.publish_chart plot_named short_job "overwrite" barren_world
    = (Err (Exn (ValuesDontSumTo100
                   "The workplan parameter values should total 100, instead sums to 90.")),
       barren_world).
Proof.
  apply (chart_publish_chart_invalid plot_named short_job "overwrite"
           "Auto Mechanic II"); reflexivity.
Defined.

(** X22: for a job with a string title and a valid workplan,
    [publish_chart] of [chart.py] hands the chart service the figure of
    [position_radarchart] under the title in small letters, with hyphens
    for spaces, followed by [-posting]; what the service returns or raises
    is the result. *)
Theorem chart_publish_chart_valid
    (plot : chart_result -> string -> string -> io string)
    (job : Chart.Position) (fileoption job_title lowered : string)
    (w : world) :
  Chart.title job = VStr job_title ->
  Chart.lower job_title = Ok lowered ->
  validate_workplan (Chart.workplan job) = Return (VBool true) ->
  exists fig : figure,
    position_radarchart job_title (Chart.workplan job) = Return (Fig fig) /\
    Chart.publish_chart plot job fileoption w
      = plot (Fig fig)
             (Chart.replace_char " " "-" lowered ++ "-posting")
             fileoption w.
Proof.
  intros Htitle Hlower Hv.
  destruct (position_radarchart_valid job_title _ Hv)
    as (items & zs & m & _ & _ & _ & _ & Hfig).
  eexists. split; [exact Hfig|].
  unfold Chart.publish_chart, io_try, io_bind, pure.
  rewrite Htitle. cbn [str_value result_bind Chart.call_lower].
  rewrite Hfig, Hlower. cbn [lift result_bind format].
  match goal with
  | |- context [plot ?f ?n ?o w] =>
      destruct (plot f n o w) as [[url|err|] w']
  end; reflexivity.
Qed.

Lemma chart_publish_chart_valid_witness :
  exists fig : figure,
    position_radarchart "Auto Mechanic II" mechanic_workplan
      = Return (Fig fig) /\
    Chart.publish_chart plot_named mechanic_job "overwrite" barren_world
      = (Ok "https://plot.ly/~office/auto-mechanic-ii-posting",
         barren_world).
Proof.
  apply (chart_publish_chart_valid plot_named mechanic_job "overwrite"
           "Auto Mechanic II" "auto mechanic ii" barren_world);
    reflexivity.
Defined.
